(** * yb/consensus/consensus.cc: rounds, leader state, fault hooks

    A shallow embedding of the functions defined in
    [src/yb/consensus/consensus.cc] and the properties of the consensus
    facade that follow from them.

    Conventions.
    - [int64_t] values are integers of [Z]; the file only compares them and
      prints them in decimal, so no wrap-around occurs.
    - A [shared_ptr<T>] or a [std::function] is an [option]: [None] is the null
      pointer or the empty function.
    - Code that lives outside the file (completion callbacks, fault hooks, the
      pure virtual methods of [Consensus]) acts on an abstract [World]; every
      call into such code is also appended to a trace, so that "is invoked",
      "how many times" and "with which arguments" can be stated.
    - [LOG(FATAL)] and failed checks end the process: [Fatal]. *)

From Stdlib Require Import ZArith List String Ascii Bool Lia DecimalString.
From Stdlib Require DecimalZ DecimalPos.
Import ListNotations.

Local Open Scope Z_scope.
Local Open Scope string_scope.

(** ** Strings: [strings::Substitute] and decimal rendering *)

Module Strings.

(** The decimal rendering of a signed integer, as [SubstituteArg(int64)]
    produces it: an optional minus sign and the digits, ["0"] for zero. *)
Definition SubstituteArg_int64 (v : Z) : string :=
  NilZero.string_of_int (Z.to_int v).

(** The index a format character denotes after [$]: [$0] .. [$9]. *)
Definition digit_index (c : ascii) : option nat :=
  let n := nat_of_ascii c in
  if (48 <=? n)%nat && (n <=? 57)%nat then Some (n - 48)%nat else None.

(** [Substitute(format, args...)]: [$N] is replaced by the N-th argument and
    [$$] by a single dollar; every other character is copied. The formats of
    consensus.cc use [$0] and [$1] only and pass as many arguments; a format
    that names a missing argument or ends in a lone [$] is a caller's error
    and is given no text here. *)
Fixpoint Substitute (format : string) (args : list string) : string :=
  match format with
  | EmptyString => EmptyString
  | String c rest =>
      if Ascii.eqb c "$" then
        match rest with
        | EmptyString => EmptyString
        | String d rest' =>
            if Ascii.eqb d "$" then String "$" (Substitute rest' args)
            else match digit_index d with
                 | Some n => nth n args EmptyString ++ Substitute rest' args
                 | None => Substitute rest' args
                 end
        end
      else String c (Substitute rest args)
  end.

(** [Format(format, args...)], which [STATUS_FORMAT] expands to: the same
    [$N] placeholders, filled with the rendering of each argument. *)
Definition Format (format : string) (args : list string) : string :=
  Substitute format args.

(** [contains needle hay]: [needle] occurs in [hay] as a contiguous run. *)
Fixpoint contains (needle hay : string) : bool :=
  prefix needle hay ||
  match hay with
  | EmptyString => false
  | String _ hay' => contains needle hay'
  end.

(** A message mentions a term when the term's decimal rendering occurs in it. *)
Definition mentions (msg : string) (v : Z) : Prop :=
  contains (SubstituteArg_int64 v) msg = true.

End Strings.

Import Strings.

(** ** Status, results and outcomes *)

(** The status codes the file constructs with the [STATUS] macros; [kOther]
    stands for the remaining codes of [Status], which callbacks and hooks may
    produce. *)
Inductive StatusCode : Type :=
| kAborted
| kIllegalState
| kLeaderNotReadyToServe
| kLeaderHasNoLease
| kInvalidArgument
| kOther (raw : Z).

(** A [Status]: [Status::OK()], or an error with its code and the two message
    slices ([msg2] is empty for the two-argument [STATUS]). *)
Inductive Status : Type :=
| Status_OK
| Status_Error (code : StatusCode) (msg : string) (msg2 : string).

Definition STATUS (code : StatusCode) (msg : string) : Status :=
  Status_Error code msg EmptyString.

Definition STATUS3 (code : StatusCode) (msg msg2 : string) : Status :=
  Status_Error code msg msg2.

Definition status_ok (s : Status) : bool :=
  match s with Status_OK => true | Status_Error _ _ _ => false end.

(** [Result<T>]: a value or a non-OK status. *)
Inductive Result (T : Type) : Type :=
| ResultValue (v : T)
| ResultError (s : Status).
Arguments ResultValue {T} v.
Arguments ResultError {T} s.

(** Why a process was terminated. *)
Inductive FatalCause : Type :=
| LogFatal (msg : string)
| InvalidEnumValue (enum_name : string) (raw : Z)
| CheckNotNull.

(** What a call comes to: it returns, or the process dies. *)
Inductive Outcome (A : Type) : Type :=
| Returned (a : A)
| Fatal (why : FatalCause).
Arguments Returned {A} a.
Arguments Fatal {A} why.

Definition returned {A} (o : Outcome A) : bool :=
  match o with Returned _ => true | Fatal _ => false end.

(** ** Enumerations *)

(** [consensus::LeaderStatus]. An [enum class] variable can hold any value of
    its underlying type: [LeaderStatus_cast raw] is such a value that is not
    one of the five enumerators. *)
Inductive LeaderStatus : Type :=
| NOT_LEADER
| LEADER_BUT_NO_OP_NOT_COMMITTED
| LEADER_BUT_OLD_LEADER_MAY_HAVE_LEASE
| LEADER_BUT_NO_MAJORITY_REPLICATED_LEASE
| LEADER_AND_READY
| LeaderStatus_cast (raw : Z).

(** [consensus::OpIdType], with [OpIdType_cast] for a value outside the three
    enumerators. *)
Inductive OpIdType : Type :=
| UNKNOWN_OPID_TYPE
| RECEIVED_OPID
| COMMITTED_OPID
| OpIdType_cast (raw : Z).

(** [Consensus::HookPoint], with [HookPoint_cast] for a value outside the ten
    enumerators. *)
Inductive HookPoint : Type :=
| PRE_START
| POST_START
| PRE_CONFIG_CHANGE
| POST_CONFIG_CHANGE
| PRE_REPLICATE
| POST_REPLICATE
| PRE_UPDATE
| POST_UPDATE
| PRE_SHUTDOWN
| POST_SHUTDOWN
| HookPoint_cast (raw : Z).

(** The ten virtual methods of [ConsensusFaultHooks]. *)
Inductive HookMethod : Type :=
| mPreStart
| mPostStart
| mPreConfigChange
| mPostConfigChange
| mPreReplicate
| mPostReplicate
| mPreUpdate
| mPostUpdate
| mPreShutdown
| mPostShutdown.

(** ** Values declared in the headers *)

(** Modelled from the spec: the type [OpId], declared outside this file, is
    the pair of a term and an index. *)
Record OpId : Type := mkOpId { op_term : Z; op_index : Z }.

(** An [OpIds*] argument: the address it holds, [0] for [nullptr]. The vector
    it points to belongs to the [World]. *)
Definition OpIdsPtr : Type := N.

(** The address of a [Consensus] object, for the back-pointer of a round. *)
Definition ConsensusPtr : Type := N.

(** Build configuration: [DCHECK]s are compiled in only in debug builds. *)
Inductive BuildMode : Type := DebugBuild | ReleaseBuild.

(** Constants, types and helpers that [consensus.cc] uses and that the
    included headers declare. They are parameters of the development. *)
Class Headers : Type := {
  (** [ConsensusRound::kUnboundTerm] *)
  kUnboundTerm : Z;
  (** the default member initializer of [ConsensusRound::bound_term_] *)
  bound_term_init : Z;
  (** [yb::OpId::kUnknownTerm] *)
  kUnknownTerm : Z;
  (** [MinimumOpId()] of opid_util.h *)
  MinimumOpId : OpId;
  (** the type of [LeaderState::remaining_old_leader_lease] *)
  MonoDelta : Type;
  (** how [STATUS_FORMAT] renders a [MonoDelta] argument *)
  MonoDelta_ToString : MonoDelta -> string;
  (** the generated name function of the [OpIdType] enumeration *)
  OpIdType_Name : OpIdType -> string;
  (** the default of the [allow_stale] argument of [GetLeaderState] *)
  allow_stale_default : bool;
  (** the payload a [ReplicateMsgPtr] points to *)
  ReplicateMsg : Type
}.

(** ** Calls into code outside the file *)

(** One entry per call that leaves [consensus.cc]. *)
Inductive Event : Type :=
| EvReplicatedCb (status : Status) (leader_term : Z) (applied_op_ids : OpIdsPtr)
| EvFaultHook (method : HookMethod)
| EvGetLastReceivedOpId
| EvGetLastCommittedOpId
| EvGetLeaderState (allow_stale : bool).

Definition is_replicated_cb (e : Event) : bool :=
  match e with EvReplicatedCb _ _ _ => true | _ => false end.

(** How many times a completion callback ran in a trace. *)
Definition callback_count (t : list Event) : nat :=
  List.length (List.filter is_replicated_cb t).

(** ** Execution: a world, a trace, and calls that may be fatal *)

(** The state outside [consensus.cc] and the calls made into it so far. *)
Record Machine (World : Type) : Type := mkMachine {
  world : World;
  trace : list Event
}.
Arguments mkMachine {World} world trace.
Arguments world {World} m.
Arguments trace {World} m.

(** A computation of the file: it runs on a machine and returns or dies. *)
Definition M (World A : Type) : Type :=
  Machine World -> Outcome A * Machine World.

Definition ret {World A : Type} (a : A) : M World A :=
  fun m => (Returned a, m).

Definition bind {World A B : Type} (c : M World A) (k : A -> M World B)
  : M World B :=
  fun m =>
    match c m with
    | (Returned a, m') => k a m'
    | (Fatal why, m') => (Fatal why, m')
    end.

Definition fatal {World A : Type} (why : FatalCause) : M World A :=
  fun m => (Fatal why, m).

(** A call into outside code [f], logged as [e]. *)
Definition extern {World A : Type} (e : Event) (f : World -> A * World)
  : M World A :=
  fun m =>
    let (a, w) := f (world m) in
    (Returned a, mkMachine w (trace m ++ [e])).

Notation "x <- c ;; k" := (bind c (fun x => k))
  (at level 61, c at next level, right associativity).

(** The machine a computation leaves, and the events it added. *)
Definition final {World A : Type} (c : M World A) (m : Machine World)
  : Machine World := snd (c m).

Definition outcome {World A : Type} (c : M World A) (m : Machine World)
  : Outcome A := fst (c m).

Definition emitted {World A : Type} (c : M World A) (m : Machine World)
  : list Event := skipn (List.length (trace m)) (trace (final c m)).

(** ** The classes of consensus.h *)

Section Consensus.

Context {World : Type} {H : Headers}.

(** [ConsensusReplicatedCallback]: a [std::function] taking the status, the
    leader term and the applied op ids. *)
Definition ConsensusReplicatedCallback : Type :=
  Status -> Z -> OpIdsPtr -> World -> World.

(** [ReplicateMsgPtr], a shared pointer. *)
Definition ReplicateMsgPtr : Type := option ReplicateMsg.

Record ConsensusRound : Type := mkRound {
  consensus_ : ConsensusPtr;
  replicate_msg_ : ReplicateMsgPtr;
  replicated_cb_ : option ConsensusReplicatedCallback;
  bound_term_ : Z
}.

(** [ConsensusBootstrapInfo], with the two members its constructor
    initializes. *)
Record ConsensusBootstrapInfo : Type := mkBootstrapInfo {
  last_id : OpId;
  last_committed_id : OpId
}.

Record LeaderState : Type := mkLeaderState {
  status : LeaderStatus;
  term : Z;
  remaining_old_leader_lease : MonoDelta
}.

(** [Consensus::ConsensusFaultHooks]: ten virtual methods, each returning a
    [Status]. *)
Record ConsensusFaultHooks : Type := mkFaultHooks {
  PreStart : World -> Status * World;
  PostStart : World -> Status * World;
  PreConfigChange : World -> Status * World;
  PostConfigChange : World -> Status * World;
  PreReplicate : World -> Status * World;
  PostReplicate : World -> Status * World;
  PreUpdate : World -> Status * World;
  PostUpdate : World -> Status * World;
  PreShutdown : World -> Status * World;
  PostShutdown : World -> Status * World
}.

(** The data members of [Consensus] that the file reads or writes, and the
    object's own address. *)
Record Consensus : Type := mkConsensus {
  this : ConsensusPtr;
  fault_hooks_ : option ConsensusFaultHooks
}.

(** The pure virtual methods of [Consensus] that the file calls; a derived
    class implements them. *)
Class ConsensusImpl : Type := {
  impl_GetLastReceivedOpId : World -> Result OpId * World;
  impl_GetLastCommittedOpId : World -> Result OpId * World;
  impl_GetLeaderState : bool -> World -> LeaderState * World
}.

Context {I : ConsensusImpl}.

Definition GetLastReceivedOpId : M World (Result OpId) :=
  extern EvGetLastReceivedOpId impl_GetLastReceivedOpId.

Definition GetLastCommittedOpId : M World (Result OpId) :=
  extern EvGetLastCommittedOpId impl_GetLastCommittedOpId.

Definition GetLeaderState (allow_stale : bool) : M World LeaderState :=
  extern (EvGetLeaderState allow_stale) (impl_GetLeaderState allow_stale).

(** ** The functions of consensus.cc *)

(** [ConsensusBootstrapInfo::ConsensusBootstrapInfo()] *)
Definition ConsensusBootstrapInfo_ctor : ConsensusBootstrapInfo :=
  {| last_id := MinimumOpId; last_committed_id := MinimumOpId |}.

(** [ConsensusRound::ConsensusRound(consensus, replicate_msg, replicated_cb)]:
    the members are moved in, nothing is checked. *)
Definition ConsensusRound_ctor3 (consensus : ConsensusPtr)
    (replicate_msg : ReplicateMsgPtr)
    (replicated_cb : option ConsensusReplicatedCallback)
  : Outcome ConsensusRound :=
  Returned {| consensus_ := consensus;
              replicate_msg_ := replicate_msg;
              replicated_cb_ := replicated_cb;
              bound_term_ := bound_term_init |}.

(** [DCHECK_NOTNULL(p)]: fatal on a null pointer in a debug build, the
    pointer itself otherwise. *)
Definition DCHECK_NOTNULL {T : Type} (build : BuildMode) (p : option T)
  : Outcome (option T) :=
  match build, p with
  | DebugBuild, None => Fatal CheckNotNull
  | _, _ => Returned p
  end.

(** [ConsensusRound::ConsensusRound(consensus, replicate_msg)]: no callback,
    and the payload is checked in the body. *)
Definition ConsensusRound_ctor2 (build : BuildMode) (consensus : ConsensusPtr)
    (replicate_msg : ReplicateMsgPtr)
  : Outcome ConsensusRound :=
  let r := {| consensus_ := consensus;
              replicate_msg_ := replicate_msg;
              replicated_cb_ := None;
              bound_term_ := bound_term_init |} in
  match DCHECK_NOTNULL build (replicate_msg_ r) with
  | Returned _ => Returned r
  | Fatal why => Fatal why
  end.

(** Invoking a non-empty [replicated_cb_]. *)
Definition call_replicated_cb (cb : ConsensusReplicatedCallback)
    (s : Status) (leader_term : Z) (applied_op_ids : OpIdsPtr)
  : M World unit :=
  extern (EvReplicatedCb s leader_term applied_op_ids)
         (fun w => (tt, cb s leader_term applied_op_ids w)).

(** [ConsensusRound::NotifyReplicationFinished] *)
Definition NotifyReplicationFinished (r : ConsensusRound)
    (s : Status) (leader_term : Z) (applied_op_ids : OpIdsPtr)
  : M World unit :=
  match replicated_cb_ r with
  | None => ret tt
  | Some cb => call_replicated_cb cb s leader_term applied_op_ids
  end.

(** [ConsensusRound::CheckBoundTerm] *)
Definition CheckBoundTerm (r : ConsensusRound) (current_term : Z) : Status :=
  if negb (Z.eqb (bound_term_ r) kUnboundTerm)
     && negb (Z.eqb (bound_term_ r) current_term)
  then STATUS kAborted
         (Substitute
            "Operation submitted in term $0 cannot be replicated in term $1"
            [SubstituteArg_int64 (bound_term_ r);
             SubstituteArg_int64 current_term])
  else Status_OK.

(** [Consensus::GetLeaderStatus] *)
Definition GetLeaderStatus (allow_stale : bool) : M World LeaderStatus :=
  ls <- GetLeaderState allow_stale ;;
  ret (status ls).

(** [Consensus::LeaderTerm] *)
Definition LeaderTerm : M World Z :=
  ls <- GetLeaderState allow_stale_default ;;
  ret (term ls).

(** [Consensus::NewRound] *)
Definition NewRound (c : Consensus) (replicate_msg : ReplicateMsgPtr)
    (replicated_cb : option ConsensusReplicatedCallback)
  : Outcome ConsensusRound :=
  ConsensusRound_ctor3 (this c) replicate_msg replicated_cb.

(** [Consensus::SetFaultHooks] *)
Definition SetFaultHooks (c : Consensus) (hooks : option ConsensusFaultHooks)
  : Consensus :=
  {| this := this c; fault_hooks_ := hooks |}.

(** [Consensus::GetFaultHooks] *)
Definition GetFaultHooks (c : Consensus) : option ConsensusFaultHooks :=
  fault_hooks_ c.

(** A call of one virtual method of the installed hooks object. *)
Definition call_hook (method : HookMethod) (f : World -> Status * World)
  : M World Status :=
  extern (EvFaultHook method) f.

(** [Consensus::ExecuteHook] *)
Definition ExecuteHook (c : Consensus) (point : HookPoint) : M World Status :=
  match fault_hooks_ c with
  | Some hooks =>
      match point with
      | PRE_START => call_hook mPreStart (PreStart hooks)
      | POST_START => call_hook mPostStart (PostStart hooks)
      | PRE_CONFIG_CHANGE => call_hook mPreConfigChange (PreConfigChange hooks)
      | POST_CONFIG_CHANGE =>
          call_hook mPostConfigChange (PostConfigChange hooks)
      | PRE_REPLICATE => call_hook mPreReplicate (PreReplicate hooks)
      | POST_REPLICATE => call_hook mPostReplicate (PostReplicate hooks)
      | PRE_UPDATE => call_hook mPreUpdate (PreUpdate hooks)
      | POST_UPDATE => call_hook mPostUpdate (PostUpdate hooks)
      | PRE_SHUTDOWN => call_hook mPreShutdown (PreShutdown hooks)
      | POST_SHUTDOWN => call_hook mPostShutdown (PostShutdown hooks)
      | HookPoint_cast _ => fatal (LogFatal "Unknown fault hook.")
      end
  | None => ret Status_OK
  end.

(** [Consensus::GetLastOpId] *)
Definition GetLastOpId (type : OpIdType) : M World (Result OpId) :=
  match type with
  | RECEIVED_OPID => GetLastReceivedOpId
  | COMMITTED_OPID => GetLastCommittedOpId
  | UNKNOWN_OPID_TYPE | OpIdType_cast _ =>
      ret (ResultError
             (STATUS3 kInvalidArgument "Unsupported OpIdType"
                      (OpIdType_Name type)))
  end.

(** [LeaderState::MakeNotReadyLeader]: the object is updated in place and
    returned. *)
Definition MakeNotReadyLeader (self : LeaderState) (status_ : LeaderStatus)
  : LeaderState :=
  {| status := status_;
     term := kUnknownTerm;
     remaining_old_leader_lease := remaining_old_leader_lease self |}.

(** The raw value [FATAL_INVALID_ENUM_VALUE] reports. *)
Definition LeaderStatus_raw (s : LeaderStatus) : option Z :=
  match s with LeaderStatus_cast raw => Some raw | _ => None end.

(** [LeaderState::CreateStatus] *)
Definition CreateStatus (self : LeaderState) : Outcome Status :=
  match status self with
  | NOT_LEADER => Returned (STATUS kIllegalState "Not the leader")
  | LEADER_BUT_NO_OP_NOT_COMMITTED =>
      Returned (STATUS kLeaderNotReadyToServe
        "Leader not yet replicated NoOp to be ready to serve requests")
  | LEADER_BUT_OLD_LEADER_MAY_HAVE_LEASE =>
      Returned (STATUS kLeaderNotReadyToServe
        (Format
           "Previous leader's lease might still be active ($0 remaining)."
           [MonoDelta_ToString (remaining_old_leader_lease self)]))
  | LEADER_BUT_NO_MAJORITY_REPLICATED_LEASE =>
      Returned (STATUS kLeaderHasNoLease
        "This leader has not yet acquired a lease.")
  | LEADER_AND_READY => Returned Status_OK
  | LeaderStatus_cast raw =>
      Fatal (InvalidEnumValue "consensus::LeaderStatus" raw)
  end.

(** A caller that reports one outcome after the other on the same round. *)
Fixpoint notify_all (r : ConsensusRound)
    (calls : list (Status * Z * OpIdsPtr)) : M World unit :=
  match calls with
  | [] => ret tt
  | (s, leader_term, ids) :: rest =>
      _ <- NotifyReplicationFinished r s leader_term ids ;;
      notify_all r rest
  end.

(** The trace entry of one report, and the world after the callback [cb] has
    run on each report in turn. *)
Definition report_event (c : Status * Z * OpIdsPtr) : Event :=
  match c with (s, leader_term, ids) => EvReplicatedCb s leader_term ids end.

Definition apply_reports (cb : ConsensusReplicatedCallback)
    (calls : list (Status * Z * OpIdsPtr)) (w : World) : World :=
  fold_left (fun w c => match c with (s, t, ids) => cb s t ids w end) calls w.

(** The callback of [r] runs at most once, however often [r] is notified. *)
Definition fires_at_most_once (r : ConsensusRound) : Prop :=
  forall calls m,
    (callback_count (emitted (notify_all r calls) m) <= 1)%nat.

(** [ExecuteHook c point] is one call of the hook method [method], whose
    implementation is [f], and returns what [f] returns. *)
Definition runs_hook (c : Consensus) (point : HookPoint)
    (method : HookMethod) (f : World -> Status * World) : Prop :=
  forall m,
    ExecuteHook c point m =
    (Returned (fst (f (world m))),
     mkMachine (snd (f (world m))) (trace m ++ [EvFaultHook method])).

End Consensus.

(** ** A concrete configuration

    The statements below hold for every choice of the header values, of the
    world and of the derived class. This instance fixes one, so that the
    functions can be run: terms use [-1] as their sentinel, a lease is a
    number of milliseconds, and the world counts the calls made into it. *)

Module Sample.

Definition enumerator_name (t : OpIdType) : string :=
  match t with
  | UNKNOWN_OPID_TYPE => "UNKNOWN_OPID_TYPE"
  | RECEIVED_OPID => "RECEIVED_OPID"
  | COMMITTED_OPID => "COMMITTED_OPID"
  | OpIdType_cast _ => EmptyString
  end.

#[export] Instance headers : Headers := {|
  kUnboundTerm := -1;
  bound_term_init := -1;
  kUnknownTerm := -1;
  MinimumOpId := mkOpId 0 0;
  MonoDelta := Z;
  MonoDelta_ToString := fun d => SubstituteArg_int64 d ++ "ms";
  OpIdType_Name := enumerator_name;
  allow_stale_default := false;
  ReplicateMsg := string
|}.

(** The world: how many calls reached outside code. *)
Definition World : Type := nat.

Definition start : Machine World := mkMachine 0%nat [].

(** A completion callback that counts its runs. *)
Definition counting_cb : @ConsensusReplicatedCallback World :=
  fun _ _ _ n => S n.

(** A round bound to term 5, with the counting callback. *)
Definition round5 : @ConsensusRound World headers :=
  mkRound 1%N (Some "op") (Some counting_cb) 5.

(** An administrative round: no callback, and bound to no term. *)
Definition admin_round : @ConsensusRound World headers :=
  mkRound 1%N (Some "noop") None (-1).

(** The leader state of a ready leader of term 3. *)
Definition was_leader : @LeaderState headers :=
  mkLeaderState LEADER_AND_READY 3 (0 : Z).

(** A follower: the log ends at 3.7, 3.4 is committed, and the leader state
    is built by [MakeNotReadyLeader]. *)
#[export] Instance follower : @ConsensusImpl World headers := {|
  impl_GetLastReceivedOpId := fun n => (ResultValue (mkOpId 3 7), S n);
  impl_GetLastCommittedOpId := fun n => (ResultValue (mkOpId 3 4), S n);
  impl_GetLeaderState := fun _ n =>
    (MakeNotReadyLeader was_leader NOT_LEADER, n)
|}.

(** Hooks that fail before replication and succeed everywhere else. *)
Definition crash_pre_replicate : @ConsensusFaultHooks World :=
  let pass := fun n : World => (Status_OK, S n) in
  {| PreStart := pass; PostStart := pass;
     PreConfigChange := pass; PostConfigChange := pass;
     PreReplicate := fun n => (STATUS (kOther 0) "injected", S n);
     PostReplicate := pass;
     PreUpdate := pass; PostUpdate := pass;
     PreShutdown := pass; PostShutdown := pass |}.

Definition facade : @Consensus World := mkConsensus 1%N None.

(** Two reports on one round: a commit in term 5, then an abort in term 6. *)
Definition two_reports : list (Status * Z * OpIdsPtr) :=
  [ (Status_OK, 5, 0%N); (STATUS kAborted "term changed", 6, 0%N) ].

End Sample.

(** ** Vocabulary of the further properties *)

(** No character of [s] is a space. *)
Fixpoint no_space (s : string) : bool :=
  match s with
  | EmptyString => true
  | String c rest => negb (Ascii.eqb c " ") && no_space rest
  end.

(** The values of each enumeration that its declaration names. *)
Definition is_leader_status (s : LeaderStatus) : bool :=
  match s with LeaderStatus_cast _ => false | _ => true end.

Definition is_hook_point (p : HookPoint) : bool :=
  match p with HookPoint_cast _ => false | _ => true end.

(** The kinds of op id that have a query of their own. *)
Definition has_query (t : OpIdType) : bool :=
  match t with
  | RECEIVED_OPID | COMMITTED_OPID => true
  | UNKNOWN_OPID_TYPE | OpIdType_cast _ => false
  end.

(** * Properties *)

(** ** Strings *)

Lemma contains_unfold (needle hay : string) :
  contains needle hay =
  prefix needle hay ||
  match hay with
  | EmptyString => false
  | String _ hay' => contains needle hay'
  end.
Proof. destruct hay; reflexivity. Qed.

Lemma prefix_append (x tail : string) : prefix x (x ++ tail) = true.
Proof.
  induction x as [|c x IH]; simpl.
  - destruct tail; reflexivity.
  - destruct (ascii_dec c c) as [_|n]; [exact IH | now destruct n].
Qed.

Lemma contains_append (x before after : string) :
  contains x (before ++ x ++ after) = true.
Proof.
  induction before as [|c before IH]; simpl.
  - rewrite contains_unfold, prefix_append. reflexivity.
  - rewrite IH. apply orb_true_r.
Qed.

Lemma contains_skip (x before hay : string) :
  contains x hay = true -> contains x (before ++ hay) = true.
Proof.
  intros Hx. induction before as [|c before IH]; simpl; [exact Hx|].
  rewrite IH. apply orb_true_r.
Qed.

Lemma contains_self (x : string) : contains x x = true.
Proof.
  rewrite contains_unfold.
  assert (E : prefix x x = true).
  { induction x as [|c x IH]; simpl; [reflexivity|].
    destruct (ascii_dec c c) as [_|n]; [exact IH | now destruct n]. }
  now rewrite E.
Qed.

Lemma append_empty_r (s : string) : s ++ EmptyString = s.
Proof. induction s as [|c s IH]; simpl; [reflexivity | now rewrite IH]. Qed.

(** The message of [CheckBoundTerm], with the two terms in place. *)
Lemma Substitute_terms (a b : string) :
  Substitute "Operation submitted in term $0 cannot be replicated in term $1"
             [a; b]
  = "Operation submitted in term " ++ a
      ++ " cannot be replicated in term " ++ b.
Proof. simpl. rewrite (append_empty_r b). reflexivity. Qed.

(** The message of [CreateStatus] for a running lease. *)
Lemma Format_lease (a : string) :
  Format "Previous leader's lease might still be active ($0 remaining)."
             [a]
  = "Previous leader's lease might still be active (" ++ a ++ " remaining).".
Proof. reflexivity. Qed.

Lemma append_not_empty (a b : string) : a <> EmptyString -> a ++ b <> EmptyString.
Proof. destruct a; simpl; [congruence | discriminate]. Qed.

(** ** Traces *)

Lemma skipn_length_app {A : Type} (l l' : list A) :
  skipn (List.length l) (l ++ l') = l'.
Proof. induction l as [|x l IH]; simpl; [reflexivity | exact IH]. Qed.

Lemma callback_count_app (t t' : list Event) :
  callback_count (t ++ t') = (callback_count t + callback_count t')%nat.
Proof.
  unfold callback_count. rewrite filter_app, length_app. reflexivity.
Qed.

Lemma emitted_extern {World A : Type} (e : Event) (f : World -> A * World)
    (m : Machine World) :
  emitted (extern e f) m = [e].
Proof.
  unfold emitted, final, extern. destruct (f (world m)) as [a w]. simpl.
  apply skipn_length_app.
Qed.

Lemma extern_run {World A : Type} (e : Event) (f : World -> A * World)
    (m : Machine World) :
  extern e f m =
  (Returned (fst (f (world m))),
   mkMachine (snd (f (world m))) (trace m ++ [e])).
Proof. unfold extern. destruct (f (world m)); reflexivity. Qed.

(** ** ConsensusRound *)

Section RoundProperties.

Context {World : Type} {H : Headers}.

Implicit Types (r : @ConsensusRound World H) (m : Machine World).

Lemma callback_count_reports (calls : list (Status * Z * OpIdsPtr)) :
  callback_count (map report_event calls) = List.length calls.
Proof.
  induction calls as [|[[s t] ids] calls IH]; [reflexivity|].
  unfold callback_count in *. simpl. now rewrite IH.
Qed.

Lemma notify_all_run r cb calls m :
  replicated_cb_ r = Some cb ->
  notify_all r calls m =
  (Returned tt,
   mkMachine (apply_reports cb calls (world m))
             (trace m ++ map report_event calls)).
Proof.
  intros Hcb. revert m.
  induction calls as [|[[s t] ids] calls IH]; intros [w tr]; simpl.
  - unfold ret. now rewrite app_nil_r.
  - unfold bind, NotifyReplicationFinished. rewrite Hcb.
    unfold call_replicated_cb. rewrite extern_run. simpl.
    rewrite IH. simpl. now rewrite <- app_assoc.
Qed.

(** C1, as amended: every call of [NotifyReplicationFinished] on a round with
    a registered callback runs the callback once more. After [n] calls the
    callback has run [n] times, in the order of the calls and each time with
    the arguments of that call; nothing in the round stops a second run. *)
Theorem NotifyReplicationFinished_fires_on_every_call r cb calls m :
  replicated_cb_ r = Some cb ->
  outcome (notify_all r calls) m = Returned tt /\
  emitted (notify_all r calls) m = map report_event calls /\
  callback_count (emitted (notify_all r calls) m) = List.length calls /\
  world (final (notify_all r calls) m) = apply_reports cb calls (world m).
Proof.
  intros Hcb. unfold outcome, emitted, final.
  rewrite (notify_all_run r cb calls m Hcb). simpl.
  rewrite skipn_length_app, callback_count_reports. auto.
Qed.

(** C2: an unbound round passes [CheckBoundTerm] for every term; a round
    passes for the term it is bound to; a bound round fails for every other
    term with [Aborted], and the message shows both terms in decimal. *)
Theorem CheckBoundTerm_accepts_exactly_the_bound_term r (t : Z) :
  (bound_term_ r = kUnboundTerm -> CheckBoundTerm r t = Status_OK) /\
  CheckBoundTerm r (bound_term_ r) = Status_OK /\
  (bound_term_ r <> kUnboundTerm -> t <> bound_term_ r ->
   let msg := "Operation submitted in term "
                ++ SubstituteArg_int64 (bound_term_ r)
                ++ " cannot be replicated in term "
                ++ SubstituteArg_int64 t in
   CheckBoundTerm r t = Status_Error kAborted msg EmptyString /\
   mentions msg (bound_term_ r) /\ mentions msg t).
Proof.
  unfold CheckBoundTerm. split; [|split].
  - intros ->. now rewrite Z.eqb_refl.
  - rewrite Z.eqb_refl. simpl. now rewrite andb_false_r.
  - intros Hbound Hother.
    apply Z.eqb_neq in Hbound. rewrite Hbound.
    assert (E : Z.eqb (bound_term_ r) t = false)
      by (apply Z.eqb_neq; congruence).
    rewrite E. simpl negb. simpl andb. cbv iota.
    unfold STATUS. rewrite Substitute_terms.
    split; [reflexivity|]. unfold mentions. split.
    + apply contains_append.
    + do 3 apply contains_skip. apply contains_self.
Qed.

(** C4: on a round without a callback [NotifyReplicationFinished] returns and
    leaves the machine as it was; on a round with a callback it makes one
    call, of that callback, with the status, the leader term and the op ids
    it was given, whatever term the round is bound to. *)
Theorem NotifyReplicationFinished_forwards_its_arguments
    (consensus : ConsensusPtr) (msg : ReplicateMsgPtr) (bound : Z)
    (cb : ConsensusReplicatedCallback)
    (s : Status) (leader_term : Z) (ids : OpIdsPtr) m :
  NotifyReplicationFinished (mkRound consensus msg None bound)
                            s leader_term ids m
    = (Returned tt, m) /\
  NotifyReplicationFinished (mkRound consensus msg (Some cb) bound)
                            s leader_term ids m
    = (Returned tt,
       mkMachine (cb s leader_term ids (world m))
                 (trace m ++ [EvReplicatedCb s leader_term ids])).
Proof.
  split; [reflexivity|].
  unfold NotifyReplicationFinished, call_replicated_cb. simpl.
  now rewrite extern_run.
Qed.

End RoundProperties.

(** ** LeaderState *)

Section LeaderStateProperties.

Context {World : Type} {H : Headers} {I : @ConsensusImpl World H}.

(** C3: [CreateStatus] decides every [LeaderStatus]. A ready leader gives
    success; the four other enumerators give [IllegalState],
    [LeaderNotReadyToServe] (twice) and [LeaderHasNoLease], each with a
    message that is not empty; the message for a running lease is the fixed
    text around the rendering of [remaining_old_leader_lease]; a value that
    is no enumerator is fatal and returns nothing. *)
Theorem CreateStatus_maps_every_status (t : Z) (lease : MonoDelta) :
  CreateStatus (mkLeaderState LEADER_AND_READY t lease) = Returned Status_OK /\
  CreateStatus (mkLeaderState NOT_LEADER t lease)
    = Returned (Status_Error kIllegalState "Not the leader" EmptyString) /\
  CreateStatus (mkLeaderState LEADER_BUT_NO_OP_NOT_COMMITTED t lease)
    = Returned (Status_Error kLeaderNotReadyToServe
        "Leader not yet replicated NoOp to be ready to serve requests"
        EmptyString) /\
  (let msg := "Previous leader's lease might still be active ("
                ++ MonoDelta_ToString lease ++ " remaining)." in
   CreateStatus (mkLeaderState LEADER_BUT_OLD_LEADER_MAY_HAVE_LEASE t lease)
     = Returned (Status_Error kLeaderNotReadyToServe msg EmptyString) /\
   contains (MonoDelta_ToString lease) msg = true /\
   msg <> EmptyString) /\
  CreateStatus (mkLeaderState LEADER_BUT_NO_MAJORITY_REPLICATED_LEASE t lease)
    = Returned (Status_Error kLeaderHasNoLease
        "This leader has not yet acquired a lease." EmptyString) /\
  (forall raw,
     CreateStatus (mkLeaderState (LeaderStatus_cast raw) t lease)
       = Fatal (InvalidEnumValue "consensus::LeaderStatus" raw) /\
     returned (CreateStatus (mkLeaderState (LeaderStatus_cast raw) t lease))
       = false).
Proof.
  repeat split; try reflexivity.
  - apply contains_append.
  - discriminate.
Qed.

(** C7: [MakeNotReadyLeader] stores the status it is given and the
    unknown-term sentinel; so when the leader state that [GetLeaderState]
    returns was built by [MakeNotReadyLeader], [LeaderTerm] returns the
    sentinel. *)
Theorem MakeNotReadyLeader_term_is_unknown
    (self : LeaderState) (s : LeaderStatus) (m : Machine World) :
  status (MakeNotReadyLeader self s) = s /\
  term (MakeNotReadyLeader self s) = kUnknownTerm /\
  (fst (impl_GetLeaderState allow_stale_default (world m))
     = MakeNotReadyLeader self s ->
   outcome LeaderTerm m = Returned kUnknownTerm).
Proof.
  split; [reflexivity|]. split; [reflexivity|].
  intros Hstate. unfold outcome, LeaderTerm, bind, GetLeaderState.
  rewrite extern_run. simpl. now rewrite Hstate.
Qed.

End LeaderStateProperties.

(** ** The facade *)

Section FacadeProperties.

Context {World : Type} {H : Headers} {I : @ConsensusImpl World H}.

Implicit Types (c : @Consensus World) (m : Machine World).

(** C5: [GetLastOpId] makes one query for each of the two kinds, the
    last-received one for [RECEIVED_OPID] and the last-committed one for
    [COMMITTED_OPID], and returns its result; for [UNKNOWN_OPID_TYPE] and for
    a value outside the enumeration it makes no query and returns
    [InvalidArgument] with the name of the kind. *)
Theorem GetLastOpId_dispatches_by_kind m :
  (GetLastOpId RECEIVED_OPID m = GetLastReceivedOpId m /\
   outcome (GetLastOpId RECEIVED_OPID) m
     = Returned (fst (impl_GetLastReceivedOpId (world m))) /\
   emitted (GetLastOpId RECEIVED_OPID) m = [EvGetLastReceivedOpId]) /\
  (GetLastOpId COMMITTED_OPID m = GetLastCommittedOpId m /\
   outcome (GetLastOpId COMMITTED_OPID) m
     = Returned (fst (impl_GetLastCommittedOpId (world m))) /\
   emitted (GetLastOpId COMMITTED_OPID) m = [EvGetLastCommittedOpId]) /\
  GetLastOpId UNKNOWN_OPID_TYPE m
    = (Returned (ResultError
         (Status_Error kInvalidArgument "Unsupported OpIdType"
                       (OpIdType_Name UNKNOWN_OPID_TYPE))), m) /\
  (forall raw,
     GetLastOpId (OpIdType_cast raw) m
       = (Returned (ResultError
            (Status_Error kInvalidArgument "Unsupported OpIdType"
                          (OpIdType_Name (OpIdType_cast raw)))), m)).
Proof.
  repeat split.
  - unfold outcome. simpl. unfold GetLastReceivedOpId.
    now rewrite extern_run.
  - apply emitted_extern.
  - unfold outcome. simpl. unfold GetLastCommittedOpId.
    now rewrite extern_run.
  - apply emitted_extern.
Qed.

(** C6: without a hooks object [ExecuteHook] returns OK for every point and
    leaves the machine as it was; with a hooks object it makes one call, of
    the method named after the point, and returns that method's status as it
    is; a point outside the enumeration is then fatal. *)
Theorem ExecuteHook_runs_the_matching_hook
    (self : ConsensusPtr) (hooks : ConsensusFaultHooks) :
  (forall point m,
     ExecuteHook (mkConsensus self None) point m = (Returned Status_OK, m)) /\
  (let c := mkConsensus self (Some hooks) in
   runs_hook c PRE_START mPreStart (PreStart hooks) /\
   runs_hook c POST_START mPostStart (PostStart hooks) /\
   runs_hook c PRE_CONFIG_CHANGE mPreConfigChange (PreConfigChange hooks) /\
   runs_hook c POST_CONFIG_CHANGE mPostConfigChange (PostConfigChange hooks) /\
   runs_hook c PRE_REPLICATE mPreReplicate (PreReplicate hooks) /\
   runs_hook c POST_REPLICATE mPostReplicate (PostReplicate hooks) /\
   runs_hook c PRE_UPDATE mPreUpdate (PreUpdate hooks) /\
   runs_hook c POST_UPDATE mPostUpdate (PostUpdate hooks) /\
   runs_hook c PRE_SHUTDOWN mPreShutdown (PreShutdown hooks) /\
   runs_hook c POST_SHUTDOWN mPostShutdown (PostShutdown hooks) /\
   (forall raw m,
      ExecuteHook c (HookPoint_cast raw) m
        = (Fatal (LogFatal "Unknown fault hook."), m))).
Proof.
  split; [reflexivity|].
  repeat split; intro m; simpl; unfold call_hook; apply extern_run.
Qed.

(** C8, on [NewRound]: a null payload is accepted. [NewRound] returns a round
    whose payload is null, in every build, whereas the two-argument
    constructor stops a debug build on the same payload. *)
Theorem NewRound_accepts_a_null_payload c
    (cb : option (@ConsensusReplicatedCallback World)) :
  NewRound c None cb = Returned (mkRound (this c) None cb bound_term_init) /\
  returned (NewRound c None cb) = true /\
  (forall consensus : ConsensusPtr,
     @ConsensusRound_ctor2 World H DebugBuild consensus None
       = Fatal CheckNotNull).
Proof. repeat split. Qed.

(** C9: the constructor of [ConsensusBootstrapInfo] sets both op ids to the
    minimum op id. *)
Theorem ConsensusBootstrapInfo_starts_at_minimum :
  last_id ConsensusBootstrapInfo_ctor = MinimumOpId /\
  last_committed_id ConsensusBootstrapInfo_ctor = MinimumOpId.
Proof. split; reflexivity. Qed.

(** C10: [GetFaultHooks] returns what the last [SetFaultHooks] stored, the
    null pointer included; a second [SetFaultHooks] replaces the first and
    leaves the facade as if the first had never happened. *)
Theorem SetFaultHooks_then_GetFaultHooks c
    (h h' : option (@ConsensusFaultHooks World)) :
  GetFaultHooks (SetFaultHooks c h) = h /\
  GetFaultHooks (SetFaultHooks (SetFaultHooks c h) h') = h' /\
  SetFaultHooks (SetFaultHooks c h) h' = SetFaultHooks c h'.
Proof. repeat split. Qed.

End FacadeProperties.

(** ** The functions on the sample configuration *)

(** C1 as the claim states it fails: the round [Sample.round5] has a callback,
    and a commit report followed by an abort report runs it twice. *)
Lemma NotifyReplicationFinished_second_call_fires_again :
  replicated_cb_ Sample.round5 = Some Sample.counting_cb /\
  callback_count
    (emitted (notify_all Sample.round5 Sample.two_reports) Sample.start)
    = 2%nat /\
  world (final (notify_all Sample.round5 Sample.two_reports) Sample.start)
    = 2%nat /\
  ~ fires_at_most_once Sample.round5.
Proof.
  split; [reflexivity|]. split; [reflexivity|]. split; [reflexivity|].
  intros Hmost.
  specialize (Hmost Sample.two_reports Sample.start).
  vm_compute in Hmost. lia.
Qed.

(** The amended C1 on the same two reports: two calls, two runs. *)
Lemma NotifyReplicationFinished_two_reports :
  outcome (notify_all Sample.round5 Sample.two_reports) Sample.start
    = Returned tt /\
  emitted (notify_all Sample.round5 Sample.two_reports) Sample.start
    = [ EvReplicatedCb Status_OK 5 0%N;
        EvReplicatedCb (STATUS kAborted "term changed") 6 0%N ] /\
  callback_count
    (emitted (notify_all Sample.round5 Sample.two_reports) Sample.start)
    = 2%nat /\
  world (final (notify_all Sample.round5 Sample.two_reports) Sample.start)
    = 2%nat.
Proof.
  exact (NotifyReplicationFinished_fires_on_every_call
           Sample.round5 Sample.counting_cb Sample.two_reports Sample.start
           eq_refl).
Defined.

(** C2 on a round bound to term 5: term 5 passes, term 6 is refused with a
    message that shows 5 and 6. *)
Lemma CheckBoundTerm_bound_to_5_checked_in_6 :
  CheckBoundTerm Sample.round5 5 = Status_OK /\
  CheckBoundTerm Sample.round5 6
    = Status_Error kAborted
        "Operation submitted in term 5 cannot be replicated in term 6"
        EmptyString /\
  mentions "Operation submitted in term 5 cannot be replicated in term 6" 5 /\
  mentions "Operation submitted in term 5 cannot be replicated in term 6" 6.
Proof.
  destruct (CheckBoundTerm_accepts_exactly_the_bound_term Sample.round5 6)
    as [_ [Hsame Hother]].
  split; [exact Hsame|].
  apply Hother; simpl; discriminate.
Defined.

(** C7 on the sample follower: its leader state comes from
    [MakeNotReadyLeader], and [LeaderTerm] returns [-1]. *)
Lemma LeaderTerm_of_a_follower :
  status (MakeNotReadyLeader Sample.was_leader NOT_LEADER) = NOT_LEADER /\
  term (MakeNotReadyLeader Sample.was_leader NOT_LEADER) = -1 /\
  outcome (@LeaderTerm Sample.World Sample.headers Sample.follower)
          Sample.start
    = Returned (-1).
Proof.
  destruct (@MakeNotReadyLeader_term_is_unknown
              Sample.World Sample.headers Sample.follower
              Sample.was_leader NOT_LEADER Sample.start)
    as [Hs [Ht Hterm]].
  split; [exact Hs|]. split; [exact Ht|].
  apply Hterm. reflexivity.
Defined.

(** An unbound round passes the check in any term. *)
Example CheckBoundTerm_unbound_round :
  CheckBoundTerm Sample.admin_round 6 = Status_OK /\
  CheckBoundTerm Sample.admin_round (-1) = Status_OK.
Proof. split; reflexivity. Qed.

(** A round bound to term 5 and notified in leader term 7 hands 7 to its
    callback; the round without a callback does nothing. *)
Example NotifyReplicationFinished_passes_the_leader_term :
  NotifyReplicationFinished Sample.round5 Status_OK 7 9%N Sample.start
    = (Returned tt, mkMachine 1%nat [EvReplicatedCb Status_OK 7 9%N]) /\
  NotifyReplicationFinished Sample.admin_round Status_OK 7 9%N Sample.start
    = (Returned tt, Sample.start).
Proof. split; reflexivity. Qed.

(** On the follower the two kinds give different op ids, each from its own
    query, and the unknown kind is refused by name. *)
Example GetLastOpId_on_the_follower :
  @GetLastOpId _ _ Sample.follower RECEIVED_OPID Sample.start
    = (Returned (ResultValue (mkOpId 3 7)),
       mkMachine 1%nat [EvGetLastReceivedOpId]) /\
  @GetLastOpId _ _ Sample.follower COMMITTED_OPID Sample.start
    = (Returned (ResultValue (mkOpId 3 4)),
       mkMachine 1%nat [EvGetLastCommittedOpId]) /\
  @GetLastOpId _ _ Sample.follower UNKNOWN_OPID_TYPE Sample.start
    = (Returned (ResultError
         (Status_Error kInvalidArgument "Unsupported OpIdType"
                       "UNKNOWN_OPID_TYPE")), Sample.start).
Proof. repeat split. Qed.

(** With the crashing hooks installed the failure of [PreReplicate] reaches
    the caller of [ExecuteHook], and no other hook has run. *)
Example ExecuteHook_injected_failure :
  ExecuteHook Sample.facade PRE_REPLICATE Sample.start
    = (Returned Status_OK, Sample.start) /\
  ExecuteHook (SetFaultHooks Sample.facade (Some Sample.crash_pre_replicate))
              PRE_REPLICATE Sample.start
    = (Returned (STATUS (kOther 0) "injected"),
       mkMachine 1%nat [EvFaultHook mPreReplicate]) /\
  ExecuteHook (SetFaultHooks Sample.facade (Some Sample.crash_pre_replicate))
              (HookPoint_cast 99) Sample.start
    = (Fatal (LogFatal "Unknown fault hook."), Sample.start).
Proof. repeat split. Qed.

(** The lease message on the sample rendering: three seconds remaining. *)
Example CreateStatus_lease_of_3000ms :
  @CreateStatus Sample.headers
    (@mkLeaderState Sample.headers
       LEADER_BUT_OLD_LEADER_MAY_HAVE_LEASE (-1) (3000 : Z))
  = Returned (STATUS kLeaderNotReadyToServe
      "Previous leader's lease might still be active (3000ms remaining).").
Proof. reflexivity. Qed.

(** The two constructors on a null payload in a debug build. *)
Example null_payload_in_a_debug_build :
  @NewRound Sample.World Sample.headers
            Sample.facade None (Some Sample.counting_cb)
    = Returned (mkRound 1%N None (Some Sample.counting_cb) (-1)) /\
  @ConsensusRound_ctor2 Sample.World Sample.headers DebugBuild 1%N None
    = Fatal CheckNotNull /\
  @ConsensusRound_ctor2 Sample.World Sample.headers ReleaseBuild 1%N None
    = Returned (mkRound 1%N None None (-1)).
Proof. repeat split. Qed.

(** * Further properties of the functions *)

(** ** Decimal renderings *)

Lemma no_space_uint (u : Decimal.uint) :
  no_space (NilEmpty.string_of_uint u) = true.
Proof. induction u; simpl; auto. Qed.

Lemma no_space_int64 (v : Z) : no_space (SubstituteArg_int64 v) = true.
Proof.
  unfold SubstituteArg_int64, NilZero.string_of_int, NilZero.string_of_uint.
  destruct (Z.to_int v) as [u|u]; destruct u; simpl;
    auto using no_space_uint.
Qed.

Lemma to_int_not_nil (v : Z) :
  Z.to_int v <> Decimal.Pos Decimal.Nil /\
  Z.to_int v <> Decimal.Neg Decimal.Nil.
Proof.
  destruct v as [|p|p]; simpl; split; try discriminate;
    intros E; injection E as E; now apply DecimalPos.Unsigned.to_uint_nonnil in E.
Qed.

(** Two integers with the same rendering are equal. *)
Lemma SubstituteArg_int64_inj (a b : Z) :
  SubstituteArg_int64 a = SubstituteArg_int64 b -> a = b.
Proof.
  unfold SubstituteArg_int64. intros E.
  apply DecimalZ.to_int_inj.
  destruct (to_int_not_nil a) as [Ha1 Ha2].
  destruct (to_int_not_nil b) as [Hb1 Hb2].
  pose proof (NilZero.isi _ Ha1 Ha2) as Ia.
  pose proof (NilZero.isi _ Hb1 Hb2) as Ib.
  rewrite E in Ia. congruence.
Qed.

Lemma append_cancel_l (p x y : string) : p ++ x = p ++ y -> x = y.
Proof.
  induction p as [|c p IH]; simpl; [trivial|].
  intros E. injection E as E. auto.
Qed.

(** Two space-free words followed by a space and more text: the words and
    the text agree when the whole strings do. *)
Lemma split_at_space (a a' x y : string) :
  no_space a = true -> no_space a' = true ->
  a ++ String " " x = a' ++ String " " y -> a = a' /\ x = y.
Proof.
  revert a'. induction a as [|c a IH]; intros [|c' a'] Ha Ha' E; simpl in *.
  - injection E as E. auto.
  - injection E as Ec E. subst c'. discriminate.
  - injection E as Ec E. subst c. discriminate.
  - injection E as Ec E. subst c'.
    apply andb_true_iff in Ha, Ha'.
    destruct (IH a' (proj2 Ha) (proj2 Ha') E) as [-> ->]. auto.
Qed.

(** ** More on ConsensusRound *)

Section RoundFurther.

Context {World : Type} {H : Headers}.

Implicit Types (r : @ConsensusRound World H) (m : Machine World)
               (c : @Consensus World).

Lemma CheckBoundTerm_cases r (t : Z) :
  (bound_term_ r = kUnboundTerm \/ bound_term_ r = t) /\
    CheckBoundTerm r t = Status_OK
  \/
  (bound_term_ r <> kUnboundTerm /\ bound_term_ r <> t) /\
    CheckBoundTerm r t =
    Status_Error kAborted
      ("Operation submitted in term " ++ SubstituteArg_int64 (bound_term_ r)
         ++ " cannot be replicated in term " ++ SubstituteArg_int64 t)
      EmptyString.
Proof.
  unfold CheckBoundTerm.
  destruct (Z.eqb_spec (bound_term_ r) kUnboundTerm) as [E|N];
    cbn [negb andb].
  - left. auto.
  - destruct (Z.eqb_spec (bound_term_ r) t) as [E'|N']; cbn [negb andb].
    + left. auto.
    + right. split; [auto|]. unfold STATUS. now rewrite Substitute_terms.
Qed.

(** X1: [CheckBoundTerm] returns OK exactly when the round is unbound or bound
    to the term it is asked about, and every other answer is an [Aborted]
    status. *)
Theorem CheckBoundTerm_ok_iff r (t : Z) :
  (CheckBoundTerm r t = Status_OK <->
   bound_term_ r = kUnboundTerm \/ bound_term_ r = t) /\
  (CheckBoundTerm r t = Status_OK \/
   exists msg, CheckBoundTerm r t = Status_Error kAborted msg EmptyString).
Proof.
  destruct (CheckBoundTerm_cases r t) as [[Hb E]|[[N N'] E]]; rewrite E.
  - split; [tauto | now left].
  - split.
    + split; [discriminate | tauto].
    + right. eexists. reflexivity.
Qed.

(** X2: the refusal of [CheckBoundTerm] tells the two terms apart. When two
    checks are both refused and differ in the bound term or in the current
    term, the two statuses differ. *)
Theorem CheckBoundTerm_refusals_differ r r' (t t' : Z) :
  CheckBoundTerm r t <> Status_OK ->
  CheckBoundTerm r' t' <> Status_OK ->
  bound_term_ r <> bound_term_ r' \/ t <> t' ->
  CheckBoundTerm r t <> CheckBoundTerm r' t'.
Proof.
  intros Hr Hr' Hdiff Heq.
  destruct (CheckBoundTerm_cases r t) as [[_ E]|[_ E]]; [congruence|].
  destruct (CheckBoundTerm_cases r' t') as [[_ E']|[_ E']]; [congruence|].
  rewrite E, E' in Heq. injection Heq as Hmsg.
  assert (Hcore :
    SubstituteArg_int64 (bound_term_ r)
      ++ String " " ("cannot be replicated in term " ++ SubstituteArg_int64 t)
    = SubstituteArg_int64 (bound_term_ r')
      ++ String " " ("cannot be replicated in term " ++ SubstituteArg_int64 t'))
    by exact Hmsg.
  apply split_at_space in Hcore; try apply no_space_int64.
  destruct Hcore as [Hb Ht].
  apply SubstituteArg_int64_inj in Hb.
  apply append_cancel_l, SubstituteArg_int64_inj in Ht.
  tauto.
Qed.

(** X3: [NewRound] never fails. The round it returns keeps the payload, points
    back to the facade, and answers a notification with one call of the
    callback [NewRound] was given, or with nothing when it was given none. *)
Theorem NewRound_round_reports_to_its_callback c (msg : ReplicateMsgPtr)
    (cb : option ConsensusReplicatedCallback) :
  exists r,
    NewRound c msg cb = Returned r /\
    replicate_msg_ r = msg /\ consensus_ r = this c /\
    forall s leader_term ids m,
      NotifyReplicationFinished r s leader_term ids m =
      match cb with
      | Some f =>
          (Returned tt,
           mkMachine (f s leader_term ids (world m))
                     (trace m ++ [EvReplicatedCb s leader_term ids]))
      | None => (Returned tt, m)
      end.
Proof.
  eexists. split; [reflexivity|]. simpl. repeat split.
  intros s leader_term ids m. unfold NotifyReplicationFinished. simpl.
  destruct cb as [f|]; [|reflexivity].
  unfold call_replicated_cb. now rewrite extern_run.
Qed.

(** X4: a round as [NewRound] returns it has the default bound term, so it
    passes [CheckBoundTerm] for a term exactly when that default is the
    unbound sentinel or is the term itself; neither the payload nor the
    callback matters. *)
Theorem NewRound_round_has_the_default_term c (msg : ReplicateMsgPtr)
    (cb : option ConsensusReplicatedCallback) (t : Z) :
  exists r,
    NewRound c msg cb = Returned r /\
    bound_term_ r = bound_term_init /\
    (CheckBoundTerm r t = Status_OK <->
     bound_term_init = kUnboundTerm \/ bound_term_init = t).
Proof.
  eexists. split; [reflexivity|]. split; [reflexivity|].
  match goal with |- CheckBoundTerm ?r _ = _ <-> _ =>
    destruct (CheckBoundTerm_cases r t) as [[Hb E]|[[N N'] E]]; rewrite E;
    simpl in *
  end.
  - tauto.
  - split; [discriminate | tauto].
Qed.

(** X5: the two-argument constructor is fatal exactly in a debug build with a
    null payload. A round it returns has the payload it was given and no
    callback, so any number of notifications leaves the machine as it was. *)
Theorem ConsensusRound_ctor2_checks_only_in_debug (build : BuildMode)
    (consensus : ConsensusPtr) (msg : ReplicateMsgPtr) :
  (returned (@ConsensusRound_ctor2 World H build consensus msg) = false <->
   build = DebugBuild /\ msg = None) /\
  (forall r,
     ConsensusRound_ctor2 build consensus msg = Returned r ->
     replicate_msg_ r = msg /\ replicated_cb_ r = None /\
     forall calls m, notify_all r calls m = (Returned tt, m)).
Proof.
  split.
  - destruct build, msg as [x|]; simpl; split;
      try discriminate; try tauto; intros [E1 E2]; discriminate.
  - intros r Hr.
    assert (Er : r = mkRound consensus msg None bound_term_init)
      by (unfold ConsensusRound_ctor2, DCHECK_NOTNULL in Hr;
          destruct build, msg; simpl in Hr; congruence).
    subst r. simpl. repeat split.
    induction calls as [|[[s t] ids] calls IH]; intros m; [reflexivity|].
    simpl. unfold bind. simpl. apply IH.
Qed.

End RoundFurther.

(** ** Runs of the basic computations *)

Lemma emitted_unchanged {World A : Type} (c : M World A) (m : Machine World) :
  final c m = m -> emitted c m = [].
Proof.
  unfold emitted. intros ->. apply skipn_all.
Qed.

Lemma final_extern {World A : Type} (e : Event) (f : World -> A * World)
    (m : Machine World) :
  trace (final (extern e f) m) = (trace m ++ [e])%list.
Proof. unfold final. now rewrite extern_run. Qed.

Lemma outcome_extern {World A : Type} (e : Event) (f : World -> A * World)
    (m : Machine World) :
  outcome (extern e f) m = Returned (fst (f (world m))).
Proof. unfold outcome. now rewrite extern_run. Qed.

(** ** More on LeaderState *)

Section LeaderStateFurther.

Context {World : Type} {H : Headers} {I : @ConsensusImpl World H}.

(** X6: [CreateStatus] returns OK for the ready leader and for no other
    status; it is fatal exactly on a value that is no enumerator; and the
    term stored in the state has no part in the answer. *)
Theorem CreateStatus_ok_iff_ready (ls : LeaderState) :
  (CreateStatus ls = Returned Status_OK <-> status ls = LEADER_AND_READY) /\
  (returned (CreateStatus ls) = false <->
   is_leader_status (status ls) = false) /\
  (forall t' : Z,
     CreateStatus ls =
     CreateStatus
       (mkLeaderState (status ls) t' (remaining_old_leader_lease ls))).
Proof.
  destruct ls as [s t lease]. unfold CreateStatus. simpl status.
  destruct s; (split; [|split]); try reflexivity;
    split; intros E; try discriminate E; try reflexivity.
Qed.

(** X7: after [MakeNotReadyLeader] the state reports what its new status and
    its old lease say, so [CreateStatus] is OK exactly when the status given
    was [LEADER_AND_READY]; a second [MakeNotReadyLeader] overrides the
    first. *)
Theorem MakeNotReadyLeader_then_CreateStatus
    (self : LeaderState) (s s' : LeaderStatus) :
  (CreateStatus (MakeNotReadyLeader self s) = Returned Status_OK <->
   s = LEADER_AND_READY) /\
  CreateStatus (MakeNotReadyLeader self s) =
    CreateStatus
      (mkLeaderState s (term self) (remaining_old_leader_lease self)) /\
  MakeNotReadyLeader (MakeNotReadyLeader self s) s' =
    MakeNotReadyLeader self s'.
Proof.
  split; [|split; reflexivity].
  unfold CreateStatus, MakeNotReadyLeader. simpl status.
  destruct s; split; intros E; try discriminate E; reflexivity.
Qed.

(** X8: [GetLeaderStatus] and [LeaderTerm] each make one [GetLeaderState]
    call, the first with the flag it was given and the second with the
    default flag, and return the status and the term of the state that call
    produced; on one machine and with the default flag they read the same
    state and leave the same machine. *)
Theorem GetLeaderStatus_and_LeaderTerm_read_one_state
    (allow_stale : bool) (m : Machine World) :
  emitted (GetLeaderStatus allow_stale) m = [EvGetLeaderState allow_stale] /\
  outcome (GetLeaderStatus allow_stale) m
    = Returned (status (fst (impl_GetLeaderState allow_stale (world m)))) /\
  emitted LeaderTerm m = [EvGetLeaderState allow_stale_default] /\
  outcome LeaderTerm m
    = Returned
        (term (fst (impl_GetLeaderState allow_stale_default (world m)))) /\
  final (GetLeaderStatus allow_stale_default) m = final LeaderTerm m.
Proof.
  unfold emitted, outcome, final, GetLeaderStatus, LeaderTerm, bind,
    GetLeaderState, ret.
  rewrite !extern_run. simpl. rewrite !skipn_length_app. auto.
Qed.

End LeaderStateFurther.

(** ** More on the facade *)

Section FacadeFurther.

Context {World : Type} {H : Headers} {I : @ConsensusImpl World H}.

Implicit Types (c : @Consensus World) (m : Machine World).

(** X9: [GetLastOpId] always returns, and makes a query exactly for the two
    kinds that have one; for any other kind it leaves the machine as it was
    and its result is an error. *)
Theorem GetLastOpId_queries_iff_known_kind (type : OpIdType) m :
  returned (outcome (GetLastOpId type) m) = true /\
  (List.length (emitted (GetLastOpId type) m) <= 1)%nat /\
  (emitted (GetLastOpId type) m = [] <-> has_query type = false) /\
  (has_query type = false ->
   final (GetLastOpId type) m = m /\
   exists s, outcome (GetLastOpId type) m = Returned (ResultError s) /\
             s <> Status_OK).
Proof.
  destruct type; simpl;
    unfold GetLastReceivedOpId, GetLastCommittedOpId;
    rewrite ?outcome_extern, ?emitted_extern;
    rewrite ?emitted_unchanged by reflexivity;
    (split; [reflexivity|]); (split; [simpl; lia|]);
    (split; [split; intros E; try discriminate E; reflexivity|]);
    intros E; try discriminate E;
    (split; [reflexivity|]); eexists; (split; [reflexivity|discriminate]).
Qed.

(** X10: with a hooks object installed, two different points of the
    enumeration never run the same hook method. *)
Theorem ExecuteHook_points_have_hooks_of_their_own
    c (hooks : ConsensusFaultHooks) (p q : HookPoint) m m' :
  fault_hooks_ c = Some hooks ->
  is_hook_point p = true -> is_hook_point q = true ->
  p <> q ->
  emitted (ExecuteHook c p) m <> emitted (ExecuteHook c q) m'.
Proof.
  intros Hc Hp Hq Hpq. unfold ExecuteHook. rewrite Hc.
  destruct p; try discriminate Hp;
    destruct q; try discriminate Hq; try congruence;
    unfold call_hook; rewrite !emitted_extern; discriminate.
Qed.

(** X11: [ExecuteHook] only adds to the trace, and adds at most one call. It
    adds none exactly when no hooks object is installed or the point is
    outside the enumeration, and it is fatal exactly when a hooks object is
    installed and the point is outside the enumeration. *)
Theorem ExecuteHook_calls_at_most_one_hook c (p : HookPoint) m :
  trace (final (ExecuteHook c p) m)
    = (trace m ++ emitted (ExecuteHook c p) m)%list /\
  (List.length (emitted (ExecuteHook c p) m) <= 1)%nat /\
  (emitted (ExecuteHook c p) m = [] <->
   fault_hooks_ c = None \/ is_hook_point p = false) /\
  (returned (outcome (ExecuteHook c p) m) = false <->
   fault_hooks_ c <> None /\ is_hook_point p = false).
Proof.
  destruct c as [self [hooks|]]; unfold ExecuteHook; simpl fault_hooks_.
  - destruct p; unfold call_hook;
      rewrite ?final_extern, ?emitted_extern, ?outcome_extern;
      rewrite ?emitted_unchanged by reflexivity;
      simpl; rewrite ?app_nil_r;
      (split; [reflexivity|]); (split; [lia|]);
      (split; split; try discriminate; try tauto;
       try (intros [E|E]; discriminate E);
       try (intros [_ E]; discriminate E);
       try (intros _; split; [discriminate|reflexivity]);
       try (intros _; right; reflexivity)).
  - rewrite emitted_unchanged by reflexivity. simpl. rewrite app_nil_r.
    split; [reflexivity|]. split; [lia|].
    split; split; try tauto; try discriminate.
Qed.

(** X12: installing the null pointer switches the hooks off again. Whatever
    was installed before, [ExecuteHook] then returns OK at every point, the
    ones outside the enumeration included, and calls nothing; and what
    [ExecuteHook] does depends on the installed hooks only. *)
Theorem SetFaultHooks_null_switches_hooks_off
    c (h : option ConsensusFaultHooks) (p : HookPoint) m :
  ExecuteHook (SetFaultHooks (SetFaultHooks c h) None) p m
    = (Returned Status_OK, m) /\
  (forall c', GetFaultHooks c' = GetFaultHooks (SetFaultHooks c h) ->
              ExecuteHook c' p m = ExecuteHook (SetFaultHooks c h) p m).
Proof.
  split; [reflexivity|].
  intros c' E. unfold ExecuteHook, GetFaultHooks in *. now rewrite E.
Qed.

End FacadeFurther.

(** ** The further properties on the sample configuration *)

(** X2 on the round bound to 5: the refusals in terms 6 and 7 differ. *)
Lemma CheckBoundTerm_refused_in_6_and_in_7 :
  CheckBoundTerm Sample.round5 6 <> CheckBoundTerm Sample.round5 7.
Proof.
  apply CheckBoundTerm_refusals_differ.
  - vm_compute. discriminate.
  - vm_compute. discriminate.
  - right. discriminate.
Defined.

(** X5 in a release build: the null payload is accepted, and the round that
    comes back ignores both reports. *)
Lemma ConsensusRound_ctor2_release_null_payload :
  @ConsensusRound_ctor2 Sample.World Sample.headers ReleaseBuild 1%N None
    = Returned (mkRound 1%N None None (-1)) /\
  notify_all (@mkRound Sample.World Sample.headers 1%N None None (-1))
             Sample.two_reports Sample.start
    = (Returned tt, Sample.start).
Proof.
  destruct (@ConsensusRound_ctor2_checks_only_in_debug
              Sample.World Sample.headers ReleaseBuild 1%N None)
    as [_ Hround].
  split; [reflexivity|].
  destruct (Hround _ eq_refl) as [_ [_ Hquiet]]. apply Hquiet.
Defined.

(** X9 on the follower: the unknown kind asks nothing and is refused. *)
Lemma GetLastOpId_unknown_kind_on_the_follower :
  final (@GetLastOpId _ _ Sample.follower UNKNOWN_OPID_TYPE) Sample.start
    = Sample.start /\
  exists s,
    outcome (@GetLastOpId _ _ Sample.follower UNKNOWN_OPID_TYPE) Sample.start
      = Returned (ResultError s) /\
    s <> Status_OK.
Proof.
  destruct (@GetLastOpId_queries_iff_known_kind
              Sample.World Sample.headers Sample.follower
              UNKNOWN_OPID_TYPE Sample.start)
    as [_ [_ [_ Hrefused]]].
  apply Hrefused. reflexivity.
Defined.

(** X10 on the crashing hooks: the points before and after replication run
    different methods. *)
Lemma ExecuteHook_pre_and_post_replicate_differ :
  emitted (ExecuteHook
             (SetFaultHooks Sample.facade (Some Sample.crash_pre_replicate))
             PRE_REPLICATE) Sample.start
  <> emitted (ExecuteHook
                (SetFaultHooks Sample.facade (Some Sample.crash_pre_replicate))
                POST_REPLICATE) Sample.start.
Proof.
  apply (ExecuteHook_points_have_hooks_of_their_own
           _ Sample.crash_pre_replicate);
    [reflexivity | reflexivity | reflexivity | discriminate].
Defined.

(** X12 on the sample facade: another facade with the same hooks installed
    behaves the same at the point before replication. *)
Lemma ExecuteHook_same_hooks_other_facade :
  ExecuteHook (mkConsensus 7%N (Some Sample.crash_pre_replicate))
              PRE_REPLICATE Sample.start
  = ExecuteHook
      (SetFaultHooks Sample.facade (Some Sample.crash_pre_replicate))
      PRE_REPLICATE Sample.start.
Proof.
  destruct (SetFaultHooks_null_switches_hooks_off
              Sample.facade (Some Sample.crash_pre_replicate)
              PRE_REPLICATE Sample.start)
    as [_ Hsame].
  apply Hsame. reflexivity.
Defined.
